(** * Debugger.c: anti-debugging primitives

    A shallow embedding of [disable_gdb] and [isBeingDebugged_sysctl] from
    [Security/C/Debugger.c].  Both functions are straight-line C whose only
    interesting behaviour is the operating-system calls they make, so a
    function is embedded as a finite tree of calls ([prog]): every node is
    one request to the kernel and the subtree is what the C code does with
    the reply.  A [kernel] answers the requests; [run] executes a tree
    against a kernel and records what was asked and what was answered. *)

From Stdlib Require Import ZArith List Bool Lia.
Import ListNotations.
Open Scope Z_scope.

(** ** What the system headers provide

    [Debugger.h] includes <sys/sysctl.h>; the names below come from there
    and are not defined by the repository, so they are taken as parameters
    of the development. *)

Class SysHeaders := {
  CTL_KERN : Z;
  KERN_PROC : Z;
  KERN_PROC_PID : Z;
  P_TRACED : Z;
  sizeof_kinfo_proc : Z
}.

(** The values of the XNU headers, used to run the model on concrete inputs. *)
Definition xnu_headers : SysHeaders :=
  {| CTL_KERN := 1;
     KERN_PROC := 14;
     KERN_PROC_PID := 1;
     P_TRACED := 0x800;
     sizeof_kinfo_proc := 648 |}.

(** ** Memory of the locals

    A C object with automatic storage holds an indeterminate value until it
    is assigned: [None] is "indeterminate", [Some v] an [int] holding [v]. *)

Definition cell := option Z.

(** [struct kinfo_proc], reduced to the one member the code touches,
    [kp_proc.p_flag]. *)
Record extern_proc := { p_flag : cell }.
Record kinfo_proc := { kp_proc : extern_proc }.

Definition set_p_flag (v : cell) (info : kinfo_proc) : kinfo_proc :=
  {| kp_proc := {| p_flag := v |} |}.

(** [a[i] = v] on an array held as a list; the code only stores at
    indices inside [int name[4]]. *)
Fixpoint array_set {A} (i : nat) (v : A) (a : list A) : list A :=
  match a, i with
  | [], _ => []
  | _ :: rest, O => v :: rest
  | x :: rest, S j => x :: array_set j v rest
  end.

(** ** The processor state seen by the inline assembly *)

Record cpu := { xreg : nat -> Z; carry : bool }.

Definition set_xreg (rd : nat) (v : Z) (c : cpu) : cpu :=
  {| xreg := fun r => if Nat.eqb r rd then v else xreg c r;
     carry := carry c |}.

(** ** Requests to the operating system *)

(** The six arguments of [sysctl(name, namelen, oldp, oldlenp, newp, newlen)].
    [sa_oldp] is the content of the buffer [oldp] points to when the call is
    made, [sa_oldlenp] the content of [*oldlenp]; a null [newp] is [None]. *)
Record sysctl_args := {
  sa_name : list cell;
  sa_namelen : Z;
  sa_oldp : kinfo_proc;
  sa_oldlenp : Z;
  sa_newp : option (list Z);
  sa_newlen : Z
}.

(** What comes back: the [int] returned, what the kernel copied out to
    [p_flag] ([None]: that member was not written), and the new [*oldlenp]. *)
Record sysctl_reply := {
  sr_ret : Z;
  sr_p_flag : option Z;
  sr_oldlen : Z
}.

Inductive oscall :=
| Getpid
| Sysctl (a : sysctl_args)
| Supervisor (imm : Z) (c : cpu).

Definition reply (c : oscall) : Type :=
  match c with
  | Getpid => Z
  | Sysctl _ => sysctl_reply
  | Supervisor _ _ => cpu
  end.

(** A function body: it returns, or it makes a call and goes on with the
    reply. *)
Inductive prog (R : Type) : Type :=
| Ret (r : R)
| Call (c : oscall) (k : reply c -> prog R).

Arguments Ret {R} r.
Arguments Call {R} c k.

Fixpoint bind {A B} (p : prog A) (f : A -> prog B) : prog B :=
  match p with
  | Ret a => f a
  | Call c k => Call c (fun x => bind (k x) f)
  end.

(** ** Running a body against a kernel *)

Inductive event :=
| EvGetpid (pid : Z)
| EvSysctl (a : sysctl_args) (r : sysctl_reply)
| EvSupervisor (imm : Z) (before after : cpu).

Definition log (c : oscall) : reply c -> event :=
  match c with
  | Getpid => EvGetpid
  | Sysctl a => EvSysctl a
  | Supervisor imm before => EvSupervisor imm before
  end.

(** A kernel with internal state [S] answers every request and moves to a
    new state. *)
Record kernel (S : Type) := { serve : forall c : oscall, S -> reply c * S }.
Arguments serve {S} _ _ _.

Fixpoint run {S R} (K : kernel S) (p : prog R) (s : S) : R * S * list event :=
  match p with
  | Ret r => (r, s, [])
  | Call c k =>
      let (x, s1) := serve K c s in
      let '(r, s2, t) := run K (k x) s1 in
      (r, s2, log c x :: t)
  end.

Definition result_of {S R} (o : R * S * list event) : R := fst (fst o).
Definition state_of {S R} (o : R * S * list event) : S := snd (fst o).
Definition trace_of {S R} (o : R * S * list event) : list event := snd o.

(** ** [isBeingDebugged_sysctl] *)

(** The kernel's copy-out into [info]: members it writes are overwritten,
    the others keep what they held. *)
Definition copyout (r : sysctl_reply) (info : kinfo_proc) : kinfo_proc :=
  match sr_p_flag r with
  | Some v => set_p_flag (Some v) info
  | None => info
  end.

(** Reading an [int] object: an indeterminate one has no defined value. *)
Definition traced_bit `{SysHeaders} (info : kinfo_proc) : option bool :=
  match p_flag (kp_proc info) with
  | Some f => Some (negb (Z.land f P_TRACED =? 0))
  | None => None
  end.

(** The body, statement by statement.  The result is [None] only if the
    returned expression reads an indeterminate object. *)
Definition isBeingDebugged_sysctl `{SysHeaders} : prog (option bool) :=
  let size := sizeof_kinfo_proc in
  let info := {| kp_proc := {| p_flag := None |} |} in
  let name : list cell := [None; None; None; None] in
  let info := set_p_flag (Some 0) info in
  let name := array_set 0 (Some CTL_KERN) name in
  let name := array_set 1 (Some KERN_PROC) name in
  let name := array_set 2 (Some KERN_PROC_PID) name in
  Call Getpid (fun pid =>
  let name := array_set 3 (Some pid) name in
  Call (Sysctl {| sa_name := name; sa_namelen := 4;
                  sa_oldp := info; sa_oldlenp := size;
                  sa_newp := None; sa_newlen := 0 |}) (fun r =>
  let info := copyout r info in
  let ret := sr_ret r in
  if negb (ret =? 0) then Ret (Some false)
  else Ret (traced_bit info))).

(** The same body with the early [return false] taken out, so that a failed
    query falls through to the test of the flag.  It is not in the source;
    it is the formulation the source is compared with. *)
Definition isBeingDebugged_sysctl_no_early_return `{SysHeaders}
  : prog (option bool) :=
  let size := sizeof_kinfo_proc in
  let info := {| kp_proc := {| p_flag := None |} |} in
  let name : list cell := [None; None; None; None] in
  let info := set_p_flag (Some 0) info in
  let name := array_set 0 (Some CTL_KERN) name in
  let name := array_set 1 (Some KERN_PROC) name in
  let name := array_set 2 (Some KERN_PROC_PID) name in
  Call Getpid (fun pid =>
  let name := array_set 3 (Some pid) name in
  Call (Sysctl {| sa_name := name; sa_namelen := 4;
                  sa_oldp := info; sa_oldlenp := size;
                  sa_newp := None; sa_newlen := 0 |}) (fun r =>
  let info := copyout r info in
  Ret (traced_bit info))).

(** ** [disable_gdb] *)

(** The build-time macro [DEBUG]: not defined, or defined to an integer. *)
Inductive macro := Undefined | Defined (v : Z).

(** [#if DEBUG]: an identifier that is not defined counts as 0. *)
Definition cpp_if (m : macro) : bool :=
  match m with
  | Undefined => false
  | Defined v => negb (v =? 0)
  end.

(** The two AArch64 instructions the [__asm] block uses. *)
Inductive instr :=
| Mov (rd : nat) (imm : Z)
| Svc (imm : Z).

Definition disable_gdb_asm : list instr :=
  [ Mov 0 31;
    Mov 1 0;
    Mov 2 0;
    Mov 3 0;
    Mov 16 26;
    Svc 0x80 ].

(** [mov] writes a register; [svc] traps into the kernel, which hands the
    processor back in whatever state it chooses. *)
Definition exec_instr (i : instr) (c : cpu) : prog cpu :=
  match i with
  | Mov rd imm => Ret (set_xreg rd imm c)
  | Svc imm => Call (Supervisor imm c) (fun c' => Ret c')
  end.

Fixpoint exec_asm (code : list instr) (c : cpu) : prog cpu :=
  match code with
  | [] => Ret c
  | i :: rest => bind (exec_instr i c) (exec_asm rest)
  end.

(** [disable_gdb] entered with the processor in state [c]. *)
Definition disable_gdb (DEBUG : macro) (c : cpu) : prog unit :=
  if cpp_if DEBUG then Ret tt
  else bind (exec_asm disable_gdb_asm c) (fun _ => Ret tt).

(** The registers as the five [mov]s leave them. *)
Definition ptrace_request (c : cpu) : cpu :=
  set_xreg 16 26 (set_xreg 3 0 (set_xreg 2 0 (set_xreg 1 0 (set_xreg 0 31 c)))).

(** One call of [disable_gdb] after another, the i-th entered with the
    processor in the i-th state of [entries]. *)
Fixpoint disable_gdb_calls (DEBUG : macro) (entries : list cpu) : prog unit :=
  match entries with
  | [] => Ret tt
  | c :: rest => bind (disable_gdb DEBUG c) (fun _ => disable_gdb_calls DEBUG rest)
  end.

Definition is_supervisor (e : event) : bool :=
  match e with
  | EvSupervisor _ _ _ => true
  | _ => false
  end.

(** ** Threads *)

(** One step of a thread: its next call is served, or it has returned and
    stays where it is. *)
Definition step {S R} (K : kernel S) (p : prog R) (s : S) : prog R * S :=
  match p with
  | Ret r => (Ret r, s)
  | Call c k => let (x, s1) := serve K c s in (k x, s1)
  end.

(** Threads sharing one kernel, advanced in the order a schedule names
    them; a schedule entry that names no thread is skipped. *)
Fixpoint interleave {S R} (K : kernel S) (sched : list nat)
  (pool : list (prog R)) (s : S) : list (prog R) * S :=
  match sched with
  | [] => (pool, s)
  | i :: rest =>
      match nth_error pool i with
      | None => interleave K rest pool s
      | Some p =>
          let (p', s1) := step K p s in
          interleave K rest (array_set i p' pool) s1
      end
  end.

(** [quiet K s p]: run from state [s], no call of [p] moves the kernel out
    of [s]. *)
Fixpoint quiet {S R} (K : kernel S) (s : S) (p : prog R) : Prop :=
  match p with
  | Ret _ => True
  | Call c k => snd (serve K c s) = s /\ quiet K s (k (fst (serve K c s)))
  end.

(** The contract of the two services the query uses: [getpid] changes
    nothing, and [sysctl] with a null [newp] only retrieves. *)
Definition retrieval_only {S} (K : kernel S) : Prop :=
  (forall s, snd (serve K Getpid s) = s) /\
  (forall a s, sa_newp a = None -> snd (serve K (Sysctl a) s) = s).

(** ** Kernels to run the model on *)

(** A one-process kernel: it knows the process's id, whether a tracer is
    attached, and whether attaching has been denied. *)
Record proc_state := { self_pid : Z; traced : bool; attach_denied : bool }.

Definition asks_own_proc `{SysHeaders} (st : proc_state) (a : sysctl_args)
  : bool :=
  match sa_name a, sa_newp a with
  | [Some n0; Some n1; Some n2; Some n3], None =>
      (n0 =? CTL_KERN) && (n1 =? KERN_PROC) && (n2 =? KERN_PROC_PID)
      && (n3 =? self_pid st) && (sa_namelen a =? 4)
  | _, _ => false
  end.

Definition demo_kernel `{SysHeaders} : kernel proc_state :=
  {| serve := fun c =>
       match c as c0 return proc_state -> reply c0 * proc_state with
       | Getpid => fun st => (self_pid st, st)
       | Sysctl a => fun st =>
           if asks_own_proc st a
           then ({| sr_ret := 0;
                    sr_p_flag := Some (if traced st then P_TRACED else 0);
                    sr_oldlen := sizeof_kinfo_proc |}, st)
           else ({| sr_ret := -1; sr_p_flag := None;
                    sr_oldlen := sa_oldlenp a |}, st)
       | Supervisor imm c => fun st =>
           if (imm =? 0x80) && (xreg c 16 =? 26) && (xreg c 0 =? 31)
           then (set_xreg 0 0 c,
                 {| self_pid := self_pid st; traced := traced st;
                    attach_denied := true |})
           else ({| xreg := xreg (set_xreg 0 78 c); carry := true |}, st)
       end |}.

(** A kernel that offers neither service: every [sysctl] fails without
    writing anything, every supervisor call comes back with the carry flag
    set and an error number in [x0]. *)
Definition refusing_kernel : kernel unit :=
  {| serve := fun c =>
       match c as c0 return unit -> reply c0 * unit with
       | Getpid => fun st => (1, st)
       | Sysctl a => fun st =>
           ({| sr_ret := -1; sr_p_flag := None; sr_oldlen := sa_oldlenp a |},
            st)
       | Supervisor imm c => fun st =>
           ({| xreg := xreg (set_xreg 0 78 c); carry := true |}, st)
       end |}.

Definition cpu0 : cpu := {| xreg := fun _ => 0; carry := false |}.

Definition untraced_proc : proc_state :=
  {| self_pid := 4242; traced := false; attach_denied := false |}.

Definition traced_proc : proc_state :=
  {| self_pid := 4242; traced := true; attach_denied := false |}.

Definition other_traced_proc : proc_state :=
  {| self_pid := 7; traced := true; attach_denied := true |}.

(** A kernel whose [sysctl] fails after it has already copied out a flag
    with the XNU trace bit set. *)
Definition torn_kernel : kernel unit :=
  {| serve := fun c =>
       match c as c0 return unit -> reply c0 * unit with
       | Getpid => fun st => (1, st)
       | Sysctl a => fun st =>
           ({| sr_ret := -1; sr_p_flag := Some 0x800;
               sr_oldlen := sa_oldlenp a |}, st)
       | Supervisor imm c => fun st => (c, st)
       end |}.

(** A processor state in which every register holds a different value. *)
Definition cpu_numbered : cpu :=
  {| xreg := fun r => 100 + Z.of_nat r; carry := true |}.

(** The request behind a recorded event. *)
Definition request_of (e : event) : oscall :=
  match e with
  | EvGetpid _ => Getpid
  | EvSysctl a _ => Sysctl a
  | EvSupervisor imm before _ => Supervisor imm before
  end.

(** ** The query in closed form *)

(** The arguments of the one [sysctl] call, for a given [getpid] answer. *)
Definition query `{SysHeaders} (pid : Z) : sysctl_args :=
  {| sa_name := [Some CTL_KERN; Some KERN_PROC; Some KERN_PROC_PID; Some pid];
     sa_namelen := 4;
     sa_oldp := {| kp_proc := {| p_flag := Some 0 |} |};
     sa_oldlenp := sizeof_kinfo_proc;
     sa_newp := None;
     sa_newlen := 0 |}.

(** What the body returns for a given [sysctl] reply. *)
Definition verdict `{SysHeaders} (r : sysctl_reply) : option bool :=
  if negb (sr_ret r =? 0) then Some false
  else traced_bit (copyout r {| kp_proc := {| p_flag := Some 0 |} |}).

(** * Properties *)

(** ** Calls that leave the kernel where it is *)

Lemma result_of_call {S R} (K : kernel S) (c : oscall) (k : reply c -> prog R)
  (s : S) :
  result_of (run K (Call c k) s) =
  result_of (run K (k (fst (serve K c s))) (snd (serve K c s))).
Proof.
  simpl. destruct (serve K c s) as [x s1]; simpl.
  destruct (run K (k x) s1) as [[r s2] t]. reflexivity.
Qed.

Lemma state_of_call {S R} (K : kernel S) (c : oscall) (k : reply c -> prog R)
  (s : S) :
  state_of (run K (Call c k) s) =
  state_of (run K (k (fst (serve K c s))) (snd (serve K c s))).
Proof.
  simpl. destruct (serve K c s) as [x s1]; simpl.
  destruct (run K (k x) s1) as [[r s2] t]. reflexivity.
Qed.

Lemma quiet_run {S R} (K : kernel S) (s : S) (p : prog R) :
  quiet K s p -> state_of (run K p s) = s.
Proof.
  induction p as [r | c k IH]; simpl quiet.
  - reflexivity.
  - intros [Hs Hq]. rewrite state_of_call, Hs. apply IH, Hq.
Qed.

(** A step of a quiet thread keeps the state, stays quiet, and does not
    change what the thread will return. *)
Lemma quiet_step {S R} (K : kernel S) (s : S) (p : prog R) :
  quiet K s p ->
  snd (step K p s) = s /\
  quiet K s (fst (step K p s)) /\
  result_of (run K (fst (step K p s)) s) = result_of (run K p s).
Proof.
  destruct p as [r | c k]; simpl quiet.
  - intros _. simpl. auto.
  - intros [Hs Hq]. rewrite result_of_call, Hs.
    unfold step. destruct (serve K c s) as [x s1]; simpl in *. auto.
Qed.

Lemma Forall_array_set {A} (P : A -> Prop) (i : nat) (v : A) (a : list A) :
  P v -> Forall P a -> Forall P (array_set i v a).
Proof.
  intros Hv Ha. revert i.
  induction Ha as [ | x rest Hx Hrest IH]; intros [ | i]; simpl;
    constructor; auto.
Qed.

Lemma nth_error_Forall {A} (P : A -> Prop) (a : list A) (i : nat) (x : A) :
  Forall P a -> nth_error a i = Some x -> P x.
Proof.
  intros Ha. revert i.
  induction Ha as [ | y rest Hy _ IH]; intros [ | i]; simpl; try discriminate.
  - intros E. injection E as <-. exact Hy.
  - apply IH.
Qed.

(** Quiet threads that all return [v] when run alone: under any schedule
    the kernel state never moves and the threads stay so. *)
Lemma interleave_quiet {S R} (K : kernel S) (s : S) (v : R)
  (sched : list nat) :
  forall pool : list (prog R),
    Forall (fun q => quiet K s q /\ result_of (run K q s) = v) pool ->
    snd (interleave K sched pool s) = s /\
    Forall (fun q => quiet K s q /\ result_of (run K q s) = v)
           (fst (interleave K sched pool s)).
Proof.
  induction sched as [ | i rest IH]; intros pool Hpool; simpl.
  - auto.
  - destruct (nth_error pool i) as [p | ] eqn:Ei.
    + destruct (nth_error_Forall _ _ _ _ Hpool Ei) as [Hq Hr].
      destruct (quiet_step K s p Hq) as (Hs & Hq' & Hr').
      destruct (step K p s) as [p' s1]; simpl in *. subst s1.
      apply IH, Forall_array_set; auto.
      split; [exact Hq' | congruence].
    + apply IH, Hpool.
Qed.

Section Query.
Context `{SysHeaders}.

(** Every run is one [getpid] followed by one [sysctl]. *)
Lemma run_isBeingDebugged_sysctl {S} (K : kernel S) (s : S) :
  run K isBeingDebugged_sysctl s =
  let (pid, s1) := serve K Getpid s in
  let (r, s2) := serve K (Sysctl (query pid)) s1 in
  (verdict r, s2, [EvGetpid pid; EvSysctl (query pid) r]).
Proof.
  unfold isBeingDebugged_sysctl, query, verdict; simpl.
  destruct (serve K Getpid s) as [pid s1].
  unfold set_p_flag.
  destruct (serve K (Sysctl _) s1) as [r s2].
  destruct (negb (sr_ret r =? 0)); reflexivity.
Qed.

Lemma run_no_early_return {S} (K : kernel S) (s : S) :
  run K isBeingDebugged_sysctl_no_early_return s =
  let (pid, s1) := serve K Getpid s in
  let (r, s2) := serve K (Sysctl (query pid)) s1 in
  (traced_bit (copyout r (sa_oldp (query pid))), s2,
   [EvGetpid pid; EvSysctl (query pid) r]).
Proof.
  unfold isBeingDebugged_sysctl_no_early_return, query; simpl.
  destruct (serve K Getpid s) as [pid s1].
  unfold set_p_flag.
  destruct (serve K (Sysctl _) s1) as [r s2].
  reflexivity.
Qed.

(** The [sysctl] event of a run determines the result. *)
Lemma result_from_sysctl_event {S} (K : kernel S) (s : S) a r :
  In (EvSysctl a r) (trace_of (run K isBeingDebugged_sysctl s)) ->
  result_of (run K isBeingDebugged_sysctl s) = verdict r /\
  sa_oldp a = {| kp_proc := {| p_flag := Some 0 |} |}.
Proof.
  rewrite run_isBeingDebugged_sysctl.
  destruct (serve K Getpid s) as [pid s1].
  destruct (serve K (Sysctl (query pid)) s1) as [r0 s2].
  unfold trace_of, result_of; simpl.
  intros [E | [E | []]]; [discriminate E | ].
  injection E as <- <-. split; reflexivity.
Qed.

Lemma traced_bit_zeroed :
  traced_bit {| kp_proc := {| p_flag := Some 0 |} |} = Some false.
Proof. unfold traced_bit; simpl. reflexivity. Qed.

(** C1: whenever the [sysctl] call of a run of [isBeingDebugged_sysctl]
    returns a nonzero status, the function returns [false]: a defined
    boolean, not an error and not [true]. *)
Theorem isBeingDebugged_sysctl_failure_returns_false
  {S} (K : kernel S) (s : S) (a : sysctl_args) (r : sysctl_reply) :
  In (EvSysctl a r) (trace_of (run K isBeingDebugged_sysctl s)) ->
  sr_ret r <> 0 ->
  result_of (run K isBeingDebugged_sysctl s) = Some false.
Proof.
  intros Hin Hret.
  destruct (result_from_sysctl_event K s a r Hin) as [-> _].
  unfold verdict.
  destruct (Z.eqb_spec (sr_ret r) 0) as [E | _]; [contradiction | reflexivity].
Qed.

(** C2: whenever the [sysctl] call of a run returns zero, the buffer the
    kernel has filled holds a defined [p_flag], and the function returns
    [true] if and only if [p_flag & P_TRACED] is not zero. *)
Theorem isBeingDebugged_sysctl_success_iff_traced
  {S} (K : kernel S) (s : S) (a : sysctl_args) (r : sysctl_reply) :
  In (EvSysctl a r) (trace_of (run K isBeingDebugged_sysctl s)) ->
  sr_ret r = 0 ->
  exists (f : Z) (b : bool),
    p_flag (kp_proc (copyout r (sa_oldp a))) = Some f /\
    result_of (run K isBeingDebugged_sysctl s) = Some b /\
    (b = true <-> Z.land f P_TRACED <> 0).
Proof.
  intros Hin Hret.
  destruct (result_from_sysctl_event K s a r Hin) as [-> ->].
  unfold verdict. rewrite Hret. simpl.
  unfold traced_bit, copyout.
  destruct (sr_p_flag r) as [v | ]; simpl.
  - exists v, (negb (Z.land v P_TRACED =? 0)).
    split; [reflexivity | split; [reflexivity | ]].
    destruct (Z.eqb_spec (Z.land v P_TRACED) 0) as [E | E]; simpl.
    + split; [discriminate | intros Hne; contradiction].
    + split; auto.
  - exists 0, false. split; [reflexivity | split; [reflexivity | ]].
    simpl. split; [discriminate | intros Hne; contradiction].
Qed.


(** C5: every run builds the descriptor [CTL_KERN; KERN_PROC; KERN_PROC_PID;
    getpid()], in this order and with length 4, and hands it to [sysctl];
    the pid is the one [getpid] returned in this very run, and [sysctl] is
    the only other request made. *)
Theorem isBeingDebugged_sysctl_query_descriptor {S} (K : kernel S) (s : S) :
  exists (a : sysctl_args) (r : sysctl_reply),
    trace_of (run K isBeingDebugged_sysctl s) =
      [EvGetpid (fst (serve K Getpid s)); EvSysctl a r] /\
    sa_name a = [Some CTL_KERN; Some KERN_PROC; Some KERN_PROC_PID;
                 Some (fst (serve K Getpid s))] /\
    sa_namelen a = 4.
Proof.
  rewrite run_isBeingDebugged_sysctl.
  destruct (serve K Getpid s) as [pid s1]; simpl.
  destruct (serve K (Sysctl (query pid)) s1) as [r s2]; simpl.
  exists (query pid), r. repeat split.
Qed.

(** C6: in every run the buffer handed to [sysctl] already holds
    [p_flag = 0], and whatever the kernel then writes or leaves unwritten,
    the function returns a defined boolean: the flag it tests is never
    indeterminate.  If the kernel reports success without writing the flag,
    the zero that was stored is what is tested and the result is [false]. *)
Theorem isBeingDebugged_sysctl_flag_initialised {S} (K : kernel S) (s : S) :
  exists (pid : Z) (a : sysctl_args) (r : sysctl_reply) (b : bool),
    trace_of (run K isBeingDebugged_sysctl s) = [EvGetpid pid; EvSysctl a r] /\
    p_flag (kp_proc (sa_oldp a)) = Some 0 /\
    result_of (run K isBeingDebugged_sysctl s) = Some b /\
    match sr_p_flag r with
    | None => b = false
    | Some _ => True
    end.
Proof.
  rewrite run_isBeingDebugged_sysctl.
  destruct (serve K Getpid s) as [pid s1]; simpl.
  destruct (serve K (Sysctl (query pid)) s1) as [r s2]; simpl.
  unfold result_of, trace_of, verdict, traced_bit, copyout; simpl.
  destruct (negb (sr_ret r =? 0)).
  - exists pid, (query pid), r, false. repeat split.
    destruct (sr_p_flag r); auto.
  - destruct (sr_p_flag r) as [v | ] eqn:Ew; simpl.
    + exists pid, (query pid), r, (negb (Z.land v P_TRACED =? 0)).
      rewrite Ew. repeat split.
    + exists pid, (query pid), r, false. rewrite Ew. repeat split.
Qed.

(** C8: the one [sysctl] call passes a null [newp] and a [newlen] of zero;
    against a kernel where such a call only retrieves, a run leaves the
    kernel state as it found it, and so do any number of calls interleaved
    in any order, each of which returns what a call on its own returns. *)
Theorem isBeingDebugged_sysctl_read_only {S} (K : kernel S) (s : S)
  (n : nat) (sched : list nat) :
  retrieval_only K ->
  Forall (fun e => match e with
                   | EvSysctl a _ => sa_newp a = None /\ sa_newlen a = 0
                   | _ => True
                   end) (trace_of (run K isBeingDebugged_sysctl s)) /\
  state_of (run K isBeingDebugged_sysctl s) = s /\
  snd (interleave K sched (repeat isBeingDebugged_sysctl n) s) = s /\
  Forall (fun q => match q with
                   | Ret b => b = result_of (run K isBeingDebugged_sysctl s)
                   | Call _ _ => True
                   end)
         (fst (interleave K sched (repeat isBeingDebugged_sysctl n) s)).
Proof.
  intros [Hpid Hsys].
  assert (Hq : quiet K s isBeingDebugged_sysctl).
  { unfold isBeingDebugged_sysctl; simpl. split; [apply Hpid | ].
    split; [apply Hsys; reflexivity | ].
    destruct (negb _); exact I. }
  split; [ | split; [apply quiet_run, Hq | ]].
  - rewrite run_isBeingDebugged_sysctl.
    destruct (serve K Getpid s) as [pid s1].
    destruct (serve K (Sysctl (query pid)) s1) as [r s2].
    unfold trace_of; simpl. repeat constructor.
  - destruct (interleave_quiet K s
                (result_of (run K isBeingDebugged_sysctl s)) sched
                (repeat isBeingDebugged_sysctl n)) as [Hs Hpool].
    { apply Forall_forall. intros q Hin.
      apply repeat_spec in Hin. subst q. auto. }
    split; [exact Hs | ].
    eapply Forall_impl; [ | exact Hpool].
    intros [b | c k] [_ Hr]; [ | exact I].
    exact Hr.
Qed.

(** C9: when [sysctl] fails and leaves the buffer as it was initialised,
    the function and its variant without the early return both return
    [false]. *)
Theorem early_return_redundant {S} (K : kernel S) (s : S)
  (a : sysctl_args) (r : sysctl_reply) :
  In (EvSysctl a r) (trace_of (run K isBeingDebugged_sysctl s)) ->
  sr_ret r <> 0 ->
  copyout r (sa_oldp a) = sa_oldp a ->
  result_of (run K isBeingDebugged_sysctl s) = Some false /\
  result_of (run K isBeingDebugged_sysctl_no_early_return s) =
    result_of (run K isBeingDebugged_sysctl s).
Proof.
  rewrite run_isBeingDebugged_sysctl, run_no_early_return.
  destruct (serve K Getpid s) as [pid s1].
  destruct (serve K (Sysctl (query pid)) s1) as [r0 s2].
  unfold trace_of, result_of; simpl.
  intros [E | [E | []]]; [discriminate E | ].
  injection E as <- <-. intros Hret Hbuf.
  simpl in Hbuf. rewrite Hbuf, traced_bit_zeroed.
  unfold verdict.
  destruct (Z.eqb_spec (sr_ret r0) 0) as [E | _]; [contradiction | ].
  split; reflexivity.
Qed.

(** C10: two runs, against any kernels and from any states, whose [sysctl]
    calls return the same status and, when that status is zero, copy out
    the same flag, return the same boolean. *)
Theorem isBeingDebugged_sysctl_deterministic
  {S1 S2} (K1 : kernel S1) (K2 : kernel S2) (s1 : S1) (s2 : S2)
  (a1 a2 : sysctl_args) (r1 r2 : sysctl_reply) :
  In (EvSysctl a1 r1) (trace_of (run K1 isBeingDebugged_sysctl s1)) ->
  In (EvSysctl a2 r2) (trace_of (run K2 isBeingDebugged_sysctl s2)) ->
  sr_ret r1 = sr_ret r2 ->
  (sr_ret r1 = 0 -> sr_p_flag r1 = sr_p_flag r2) ->
  result_of (run K1 isBeingDebugged_sysctl s1) =
  result_of (run K2 isBeingDebugged_sysctl s2).
Proof.
  intros H1 H2 Hret Hflag.
  destruct (result_from_sysctl_event K1 s1 a1 r1 H1) as [-> _].
  destruct (result_from_sysctl_event K2 s2 a2 r2 H2) as [-> _].
  unfold verdict. rewrite <- Hret.
  destruct (Z.eqb_spec (sr_ret r1) 0) as [E | _]; simpl; [ | reflexivity].
  unfold copyout. rewrite (Hflag E). reflexivity.
Qed.

End Query.

(** With the XNU value of [P_TRACED], the test is the test of bit 11. *)
Lemma land_0x800_testbit (f : Z) :
  negb (Z.land f 0x800 =? 0) = Z.testbit f 11.
Proof.
  change 0x800 with (2 ^ 11).
  destruct (Z.testbit f 11) eqn:Eb.
  - destruct (Z.eqb_spec (Z.land f (2 ^ 11)) 0) as [E | _]; [ | reflexivity].
    assert (Hb : Z.testbit (Z.land f (2 ^ 11)) 11 = true).
    { rewrite Z.land_spec, Eb, Z.pow2_bits_true by lia. reflexivity. }
    rewrite E, Z.bits_0 in Hb. discriminate Hb.
  - replace (Z.land f (2 ^ 11)) with 0; [reflexivity | ].
    symmetry. apply Z.bits_inj'. intros n Hn.
    rewrite Z.land_spec, Z.bits_0, Z.pow2_bits_eqb by lia.
    destruct (Z.eqb_spec 11 n) as [<- | _].
    + rewrite Eb. reflexivity.
    + apply andb_false_r.
Qed.

Lemma traced_bit_xnu (f : Z) :
  @traced_bit xnu_headers {| kp_proc := {| p_flag := Some f |} |} =
  Some (Z.testbit f 11).
Proof.
  unfold traced_bit. cbn [p_flag kp_proc P_TRACED xnu_headers].
  rewrite land_0x800_testbit. reflexivity.
Qed.

(** ** [disable_gdb] *)

Lemma run_bind {S A B} (K : kernel S) (p : prog A) (f : A -> prog B) :
  forall s : S,
    run K (bind p f) s =
    let '(a, s1, t1) := run K p s in
    let '(b, s2, t2) := run K (f a) s1 in
    (b, s2, t1 ++ t2).
Proof.
  induction p as [a | c k IH]; intros s; simpl.
  - destruct (run K (f a) s) as [[b s2] t2]. reflexivity.
  - destruct (serve K c s) as [x s1]. rewrite IH.
    destruct (run K (k x) s1) as [[a s2] t1].
    destruct (run K (f a) s2) as [[b s3] t2]. reflexivity.
Qed.

(** The body after preprocessing: nothing, or one supervisor call whose
    reply is dropped. *)
Lemma disable_gdb_body (DEBUG : macro) (c : cpu) :
  disable_gdb DEBUG c =
  if cpp_if DEBUG then Ret tt
  else Call (Supervisor 0x80 (ptrace_request c)) (fun _ => Ret tt).
Proof. unfold disable_gdb. destruct (cpp_if DEBUG); reflexivity. Qed.

Lemma run_disable_gdb {S} (K : kernel S) (s : S) (DEBUG : macro) (c : cpu) :
  run K (disable_gdb DEBUG c) s =
  if cpp_if DEBUG then (tt, s, [])
  else (tt, snd (serve K (Supervisor 0x80 (ptrace_request c)) s),
        [EvSupervisor 0x80 (ptrace_request c)
           (fst (serve K (Supervisor 0x80 (ptrace_request c)) s))]).
Proof.
  rewrite disable_gdb_body. destruct (cpp_if DEBUG); simpl; [reflexivity | ].
  destruct (serve K (Supervisor 128 (ptrace_request c)) s). reflexivity.
Qed.

Lemma cpp_if_false (DEBUG : macro) :
  cpp_if DEBUG = false <-> DEBUG = Undefined \/ DEBUG = Defined 0.
Proof.
  destruct DEBUG as [ | v]; simpl.
  - split; auto.
  - destruct (Z.eqb_spec v 0) as [-> | Hv]; simpl; split; auto.
    + discriminate.
    + intros [E | E]; [discriminate E | ]. injection E as E. contradiction.
Qed.

(** C3: [disable_gdb] makes its supervisor call exactly when [#if DEBUG]
    fails ([DEBUG] not defined, or defined to 0).  When [#if DEBUG] holds
    the call returns at once: no request is made and the kernel state is
    untouched.  Otherwise the only request of the run is [svc #0x80] with
    [x16 = 26] (ptrace) and [x0 = 31] (PT_DENY_ATTACH), [x1 = x2 = x3 = 0],
    issued in whatever state the function was entered. *)
Theorem disable_gdb_debug_gate {S} (K : kernel S) (s : S) (DEBUG : macro)
  (c : cpu) :
  run K (disable_gdb DEBUG c) s =
    (if cpp_if DEBUG then (tt, s, [])
     else (tt, snd (serve K (Supervisor 0x80 (ptrace_request c)) s),
           [EvSupervisor 0x80 (ptrace_request c)
              (fst (serve K (Supervisor 0x80 (ptrace_request c)) s))])) /\
  existsb is_supervisor (trace_of (run K (disable_gdb DEBUG c) s)) =
    negb (cpp_if DEBUG) /\
  (cpp_if DEBUG = false <-> DEBUG = Undefined \/ DEBUG = Defined 0) /\
  xreg (ptrace_request c) 16 = 26 /\
  xreg (ptrace_request c) 0 = 31 /\
  xreg (ptrace_request c) 1 = 0 /\
  xreg (ptrace_request c) 2 = 0 /\
  xreg (ptrace_request c) 3 = 0.
Proof.
  split; [apply run_disable_gdb | ].
  split; [rewrite run_disable_gdb; destruct (cpp_if DEBUG); reflexivity | ].
  split; [apply cpp_if_false | ].
  repeat split.
Qed.

Lemma requests_disable_gdb_calls {S} (K : kernel S) (DEBUG : macro)
  (entries : list cpu) :
  forall s : S,
    map request_of (trace_of (run K (disable_gdb_calls DEBUG entries) s)) =
    if cpp_if DEBUG then []
    else map (fun c => Supervisor 0x80 (ptrace_request c)) entries.
Proof.
  induction entries as [ | c rest IH]; intros s; simpl.
  - destruct (cpp_if DEBUG); reflexivity.
  - rewrite run_bind, run_disable_gdb.
    destruct (cpp_if DEBUG) eqn:Eg.
    + specialize (IH s).
      destruct (run K (disable_gdb_calls DEBUG rest) s) as [[u s2] t2].
      exact IH.
    + specialize (IH (snd (serve K (Supervisor 128 (ptrace_request c)) s))).
      destruct (run K (disable_gdb_calls DEBUG rest) _) as [[u s2] t2].
      unfold trace_of in *; simpl in *. rewrite IH. reflexivity.
Qed.

(** C7: [disable_gdb] returns no value and its body does not look at what
    the supervisor call left behind: after the call it returns, whatever the
    reply.  Called any number of times against any kernel, every call runs
    to its end: the requests made are one supervisor call per invocation
    (none when [#if DEBUG] holds), whatever the earlier calls were answered. *)
Theorem disable_gdb_fire_and_forget {S} (K : kernel S) (s : S)
  (DEBUG : macro) (c : cpu) (entries : list cpu) :
  disable_gdb DEBUG c =
    (if cpp_if DEBUG then Ret tt
     else Call (Supervisor 0x80 (ptrace_request c)) (fun _ => Ret tt)) /\
  result_of (run K (disable_gdb_calls DEBUG entries) s) = tt /\
  map request_of (trace_of (run K (disable_gdb_calls DEBUG entries) s)) =
    (if cpp_if DEBUG then []
     else map (fun c => Supervisor 0x80 (ptrace_request c)) entries).
Proof.
  split; [apply disable_gdb_body | ].
  split; [ | apply requests_disable_gdb_calls].
  destruct (result_of _). reflexivity.
Qed.

(** C4, as the claim states it, fails: against a kernel that offers neither
    service, a release build of [disable_gdb] is not a no-op, it makes its
    supervisor call all the same. *)
Lemma disable_gdb_no_fallback_counterexample :
  (forall imm c,
      carry (fst (serve refusing_kernel (Supervisor imm c) tt)) = true) /\
  (forall a, sr_ret (fst (serve refusing_kernel (Sysctl a) tt)) = -1) /\
  trace_of (run refusing_kernel (disable_gdb Undefined cpu0) tt) <> [].
Proof.
  split; [reflexivity | ]. split; [reflexivity | ].
  simpl. discriminate.
Qed.

(** C4, amended: the code has no fallback for any platform.  Against every
    kernel a release build of [disable_gdb] makes the supervisor call
    [svc #0x80] with the ptrace registers (only a build where [#if DEBUG]
    holds does nothing), and [isBeingDebugged_sysctl] makes its [getpid]
    and [sysctl] requests and returns [false] when the query reports
    failure. *)
Theorem no_platform_fallback `{SysHeaders} {S} (K : kernel S) (s : S)
  (DEBUG : macro) (c : cpu) :
  map request_of (trace_of (run K (disable_gdb DEBUG c) s)) =
    (if cpp_if DEBUG then [] else [Supervisor 0x80 (ptrace_request c)]) /\
  map request_of (trace_of (run K isBeingDebugged_sysctl s)) =
    [Getpid; Sysctl (query (fst (serve K Getpid s)))] /\
  result_of (run K isBeingDebugged_sysctl s) =
    (let r := fst (serve K (Sysctl (query (fst (serve K Getpid s))))
                     (snd (serve K Getpid s))) in
     if sr_ret r =? 0
     then traced_bit (copyout r {| kp_proc := {| p_flag := Some 0 |} |})
     else Some false).
Proof.
  rewrite run_disable_gdb, run_isBeingDebugged_sysctl.
  split; [destruct (cpp_if DEBUG); reflexivity | ].
  destruct (serve K Getpid s) as [pid s1]; simpl.
  destruct (serve K (Sysctl (query pid)) s1) as [r s2]; simpl.
  split; [reflexivity | ].
  unfold result_of, verdict; simpl.
  destruct (sr_ret r =? 0); reflexivity.
Qed.

(** ** The model on concrete kernels *)

Example untraced_process_reports_false :
  run (@demo_kernel xnu_headers) (@isBeingDebugged_sysctl xnu_headers)
      untraced_proc =
  (Some false, untraced_proc,
   [EvGetpid 4242;
    EvSysctl (@query xnu_headers 4242)
             {| sr_ret := 0; sr_p_flag := Some 0; sr_oldlen := 648 |}]).
Proof. reflexivity. Qed.

Example traced_process_reports_true :
  result_of (run (@demo_kernel xnu_headers)
                 (@isBeingDebugged_sysctl xnu_headers) traced_proc) =
  Some true.
Proof. reflexivity. Qed.

Example release_build_denies_attach :
  attach_denied
    (state_of (run (@demo_kernel xnu_headers) (disable_gdb Undefined cpu0)
                   untraced_proc)) = true /\
  attach_denied
    (state_of (run (@demo_kernel xnu_headers) (disable_gdb (Defined 1) cpu0)
                   untraced_proc)) = false.
Proof. split; reflexivity. Qed.

Example two_interleaved_calls_finish :
  interleave (@demo_kernel xnu_headers) [0; 1; 1; 0; 2; 0; 1]%nat
    (repeat (@isBeingDebugged_sysctl xnu_headers) 2) traced_proc =
  ([Ret (Some true); Ret (Some true)], traced_proc).
Proof. reflexivity. Qed.

Example refused_queries_report_false :
  run refusing_kernel (@isBeingDebugged_sysctl xnu_headers) tt =
  (Some false, tt,
   [EvGetpid 1;
    EvSysctl (@query xnu_headers 1)
             {| sr_ret := -1; sr_p_flag := None; sr_oldlen := 648 |}]).
Proof. reflexivity. Qed.

Lemma failure_returns_false_witness :
  In (EvSysctl (@query xnu_headers 1)
               {| sr_ret := -1; sr_p_flag := None; sr_oldlen := 648 |})
     (trace_of (run refusing_kernel (@isBeingDebugged_sysctl xnu_headers) tt))
  /\ -1 <> 0
  /\ result_of (run refusing_kernel (@isBeingDebugged_sysctl xnu_headers) tt)
     = Some false.
Proof.
  assert (Hin : In (EvSysctl (@query xnu_headers 1)
                      {| sr_ret := -1; sr_p_flag := None; sr_oldlen := 648 |})
                   (trace_of (run refusing_kernel
                                  (@isBeingDebugged_sysctl xnu_headers) tt))).
  { simpl. right. left. reflexivity. }
  assert (Hret : -1 <> 0) by discriminate.
  split; [exact Hin | split; [exact Hret | ]].
  exact (@isBeingDebugged_sysctl_failure_returns_false xnu_headers unit
           refusing_kernel tt _ _ Hin Hret).
Defined.

Lemma success_iff_traced_witness :
  exists (f : Z) (b : bool),
    p_flag (kp_proc
              (copyout {| sr_ret := 0; sr_p_flag := Some 0x800;
                          sr_oldlen := 648 |}
                       (sa_oldp (@query xnu_headers 4242)))) = Some f /\
    result_of (run (@demo_kernel xnu_headers)
                   (@isBeingDebugged_sysctl xnu_headers) traced_proc)
    = Some b /\
    (b = true <-> Z.land f (@P_TRACED xnu_headers) <> 0).
Proof.
  apply (@isBeingDebugged_sysctl_success_iff_traced xnu_headers proc_state
           (@demo_kernel xnu_headers) traced_proc
           (@query xnu_headers 4242)
           {| sr_ret := 0; sr_p_flag := Some 0x800; sr_oldlen := 648 |}).
  - simpl. right. left. reflexivity.
  - reflexivity.
Defined.

Lemma demo_kernel_retrieval_only : retrieval_only (@demo_kernel xnu_headers).
Proof.
  split.
  - intros s. reflexivity.
  - intros a s _. simpl. destruct (asks_own_proc s a); reflexivity.
Defined.

Lemma read_only_witness :
  state_of (run (@demo_kernel xnu_headers)
                (@isBeingDebugged_sysctl xnu_headers) traced_proc)
  = traced_proc /\
  snd (interleave (@demo_kernel xnu_headers) [0; 1; 1; 0; 2; 0; 1]%nat
         (repeat (@isBeingDebugged_sysctl xnu_headers) 2) traced_proc)
  = traced_proc /\
  Forall (fun q => match q with
                   | Ret b => b = Some true
                   | Call _ _ => True
                   end)
         (fst (interleave (@demo_kernel xnu_headers) [0; 1; 1; 0; 2; 0; 1]%nat
                 (repeat (@isBeingDebugged_sysctl xnu_headers) 2)
                 traced_proc)).
Proof.
  exact (proj2 (@isBeingDebugged_sysctl_read_only xnu_headers proc_state
                  (@demo_kernel xnu_headers) traced_proc 2
                  [0; 1; 1; 0; 2; 0; 1]%nat demo_kernel_retrieval_only)).
Defined.

Lemma early_return_redundant_witness :
  result_of (run refusing_kernel (@isBeingDebugged_sysctl xnu_headers) tt)
  = Some false /\
  result_of (run refusing_kernel
                 (@isBeingDebugged_sysctl_no_early_return xnu_headers) tt)
  = result_of (run refusing_kernel (@isBeingDebugged_sysctl xnu_headers) tt).
Proof.
  apply (@early_return_redundant xnu_headers unit refusing_kernel tt
           (@query xnu_headers 1)
           {| sr_ret := -1; sr_p_flag := None; sr_oldlen := 648 |}).
  - simpl. right. left. reflexivity.
  - discriminate.
  - reflexivity.
Defined.

Lemma deterministic_witness :
  result_of (run (@demo_kernel xnu_headers)
                 (@isBeingDebugged_sysctl xnu_headers) traced_proc) =
  result_of (run (@demo_kernel xnu_headers)
                 (@isBeingDebugged_sysctl xnu_headers) other_traced_proc).
Proof.
  apply (@isBeingDebugged_sysctl_deterministic xnu_headers _ _ _ _ _ _
           (@query xnu_headers 4242) (@query xnu_headers 7)
           {| sr_ret := 0; sr_p_flag := Some 0x800; sr_oldlen := 648 |}
           {| sr_ret := 0; sr_p_flag := Some 0x800; sr_oldlen := 648 |}).
  - simpl. right. left. reflexivity.
  - simpl. right. left. reflexivity.
  - reflexivity.
  - intros _. reflexivity.
Defined.

(** * Further properties of the two functions *)

(** ** The registers [disable_gdb] hands to the kernel *)

(** X1: in a build where [#if DEBUG] fails, the processor state in which
    [disable_gdb] traps differs from the state at entry in [x0], [x1], [x2],
    [x3] and [x16] only: every other register, and the carry flag, reach
    the kernel as the caller left them. *)
Theorem disable_gdb_register_frame {S} (K : kernel S) (s : S)
  (DEBUG : macro) (c : cpu) (r : nat) :
  cpp_if DEBUG = false ->
  ~ In r [0; 1; 2; 3; 16]%nat ->
  exists before after : cpu,
    trace_of (run K (disable_gdb DEBUG c) s) =
      [EvSupervisor 0x80 before after] /\
    xreg before r = xreg c r /\
    carry before = carry c.
Proof.
  intros Hrel Hr. rewrite run_disable_gdb, Hrel.
  eexists. eexists. split; [reflexivity | ].
  split; [ | reflexivity].
  unfold ptrace_request, set_xreg; cbn [xreg].
  repeat match goal with
         | |- context [Nat.eqb r ?n] =>
             destruct (Nat.eqb_spec r n) as [E | _];
             [exfalso; apply Hr; rewrite E; simpl; tauto | ]
         end.
  reflexivity.
Qed.

Lemma register_frame_witness :
  exists before after : cpu,
    trace_of (run refusing_kernel (disable_gdb Undefined cpu_numbered) tt) =
      [EvSupervisor 0x80 before after] /\
    xreg before 4%nat = 104 /\
    carry before = true.
Proof.
  apply (@disable_gdb_register_frame unit refusing_kernel tt Undefined
           cpu_numbered 4%nat).
  - reflexivity.
  - simpl. intros [E | [E | [E | [E | [E | []]]]]]; discriminate E.
Defined.

(** ** The flag test *)

Lemma land_pow2_testbit (f k : Z) :
  0 <= k -> negb (Z.land f (2 ^ k) =? 0) = Z.testbit f k.
Proof.
  intros Hk.
  destruct (Z.testbit f k) eqn:Eb.
  - destruct (Z.eqb_spec (Z.land f (2 ^ k)) 0) as [E | _]; [ | reflexivity].
    assert (Hb : Z.testbit (Z.land f (2 ^ k)) k = true).
    { rewrite Z.land_spec, Eb, Z.pow2_bits_true by lia. reflexivity. }
    rewrite E, Z.bits_0 in Hb. discriminate Hb.
  - replace (Z.land f (2 ^ k)) with 0; [reflexivity | ].
    symmetry. apply Z.bits_inj'. intros n Hn.
    rewrite Z.land_spec, Z.bits_0, Z.pow2_bits_eqb by lia.
    destruct (Z.eqb_spec k n) as [<- | _].
    + rewrite Eb. reflexivity.
    + apply andb_false_r.
Qed.

Section Flag.
Context `{SysHeaders}.

(** X2: when the header's [P_TRACED] is the single bit [2^k], a successful
    query returns exactly bit [k] of the flag found in the buffer, for every
    integer flag, negative ones included; no other bit of the flag has any
    influence on the result. *)
Theorem isBeingDebugged_sysctl_single_bit {S} (K : kernel S) (s : S)
  (a : sysctl_args) (r : sysctl_reply) (k : Z) :
  0 <= k ->
  P_TRACED = 2 ^ k ->
  In (EvSysctl a r) (trace_of (run K isBeingDebugged_sysctl s)) ->
  sr_ret r = 0 ->
  exists f : Z,
    p_flag (kp_proc (copyout r (sa_oldp a))) = Some f /\
    result_of (run K isBeingDebugged_sysctl s) = Some (Z.testbit f k).
Proof.
  intros Hk Hmask Hin Hret.
  destruct (result_from_sysctl_event K s a r Hin) as [-> ->].
  unfold verdict. rewrite Hret. simpl.
  unfold traced_bit, copyout.
  destruct (sr_p_flag r) as [v | ]; simpl.
  - exists v. rewrite Hmask, land_pow2_testbit by exact Hk. auto.
  - exists 0. rewrite Z.bits_0. auto.
Qed.

(** X3: the function answers [true] only on the kernel's word: the query
    returned zero and the kernel itself copied out a flag with a
    [P_TRACED] bit set.  The zero the function stores beforehand, a failed
    query, or a query that wrote no flag never produce [true]. *)
Theorem isBeingDebugged_sysctl_true_only_from_kernel {S} (K : kernel S)
  (s : S) (a : sysctl_args) (r : sysctl_reply) :
  In (EvSysctl a r) (trace_of (run K isBeingDebugged_sysctl s)) ->
  result_of (run K isBeingDebugged_sysctl s) = Some true ->
  sr_ret r = 0 /\
  exists v : Z, sr_p_flag r = Some v /\ Z.land v P_TRACED <> 0.
Proof.
  intros Hin.
  destruct (result_from_sysctl_event K s a r Hin) as [-> _].
  unfold verdict, traced_bit, copyout.
  destruct (Z.eqb_spec (sr_ret r) 0) as [E | _]; simpl; [ | discriminate].
  destruct (sr_p_flag r) as [v | ]; simpl; [ | discriminate].
  intros Hres. split; [exact E | ].
  exists v. split; [reflexivity | ].
  intros Hz. rewrite Hz in Hres. discriminate Hres.
Qed.


(** X5: taking the early [return false] out changes the result of a run in
    exactly one situation: the query failed although the kernel had copied
    out a flag with a [P_TRACED] bit set.  In that situation the source
    answers [false] and the variant [true]. *)
Theorem early_return_matters_iff {S} (K : kernel S) (s : S)
  (a : sysctl_args) (r : sysctl_reply) :
  In (EvSysctl a r) (trace_of (run K isBeingDebugged_sysctl s)) ->
  (result_of (run K isBeingDebugged_sysctl_no_early_return s) <>
   result_of (run K isBeingDebugged_sysctl s)
   <->
   sr_ret r <> 0 /\
   exists v : Z, sr_p_flag r = Some v /\ Z.land v P_TRACED <> 0) /\
  (result_of (run K isBeingDebugged_sysctl_no_early_return s) <>
   result_of (run K isBeingDebugged_sysctl s) ->
   result_of (run K isBeingDebugged_sysctl s) = Some false /\
   result_of (run K isBeingDebugged_sysctl_no_early_return s) = Some true).
Proof.
  rewrite run_isBeingDebugged_sysctl, run_no_early_return.
  destruct (serve K Getpid s) as [pid s1].
  destruct (serve K (Sysctl (query pid)) s1) as [r0 s2].
  unfold trace_of, result_of; simpl.
  intros [E | [E | []]]; [discriminate E | ].
  injection E as <- <-.
  unfold verdict, traced_bit, copyout.
  destruct (Z.eqb_spec (sr_ret r0) 0) as [Ez | Ez]; simpl.
  - split.
    + split; [intros Hd; exfalso; apply Hd; reflexivity | ].
      intros [Hn _]. contradiction.
    + intros Hd. exfalso. apply Hd. reflexivity.
  - destruct (sr_p_flag r0) as [v | ]; simpl.
    + destruct (Z.eqb_spec (Z.land v P_TRACED) 0) as [Ev | Ev]; simpl.
      * split.
        -- split; [intros Hd; exfalso; apply Hd; reflexivity | ].
           intros [_ [w [Ew Hw]]]. injection Ew as <-. contradiction.
        -- intros Hd. exfalso. apply Hd. reflexivity.
      * split.
        -- split; [ | discriminate].
           intros _. split; [exact Ez | ]. exists v. auto.
        -- intros _. split; reflexivity.
    + split.
      * split; [intros Hd; exfalso; apply Hd; reflexivity | ].
        intros [_ [w [Ew _]]]. discriminate Ew.
      * intros Hd. exfalso. apply Hd. reflexivity.
Qed.

End Flag.

Example torn_reply_separates_the_variant :
  result_of (run torn_kernel (@isBeingDebugged_sysctl xnu_headers) tt)
  = Some false /\
  result_of (run torn_kernel
                 (@isBeingDebugged_sysctl_no_early_return xnu_headers) tt)
  = Some true.
Proof. split; reflexivity. Qed.

Lemma single_bit_witness :
  exists f : Z,
    p_flag (kp_proc
              (copyout {| sr_ret := 0; sr_p_flag := Some 0x800;
                          sr_oldlen := 648 |}
                       (sa_oldp (@query xnu_headers 4242)))) = Some f /\
    result_of (run (@demo_kernel xnu_headers)
                   (@isBeingDebugged_sysctl xnu_headers) traced_proc)
    = Some (Z.testbit f 11).
Proof.
  apply (@isBeingDebugged_sysctl_single_bit xnu_headers proc_state
           (@demo_kernel xnu_headers) traced_proc
           (@query xnu_headers 4242)
           {| sr_ret := 0; sr_p_flag := Some 0x800; sr_oldlen := 648 |} 11).
  - discriminate.
  - reflexivity.
  - simpl. right. left. reflexivity.
  - reflexivity.
Defined.

Lemma true_only_from_kernel_witness :
  0 = 0 /\
  exists v : Z, Some 0x800 = Some v /\ Z.land v 0x800 <> 0.
Proof.
  apply (@isBeingDebugged_sysctl_true_only_from_kernel xnu_headers proc_state
           (@demo_kernel xnu_headers) traced_proc
           (@query xnu_headers 4242)
           {| sr_ret := 0; sr_p_flag := Some 0x800; sr_oldlen := 648 |}).
  - simpl. right. left. reflexivity.
  - reflexivity.
Defined.

Lemma early_return_matters_witness :
  result_of (run torn_kernel
                 (@isBeingDebugged_sysctl_no_early_return xnu_headers) tt) <>
  result_of (run torn_kernel (@isBeingDebugged_sysctl xnu_headers) tt)
  <->
  -1 <> 0 /\ exists v : Z, Some 0x800 = Some v /\ Z.land v 0x800 <> 0.
Proof.
  apply (@early_return_matters_iff xnu_headers unit torn_kernel tt
           (@query xnu_headers 1)
           {| sr_ret := -1; sr_p_flag := Some 0x800; sr_oldlen := 648 |}).
  simpl. right. left. reflexivity.
Defined.
